(** * socketioN: class-based asyncio namespaces and the Kafka client manager

    A shallow embedding of [socketioN/asyncio_namespace.py] and
    [socketioN/kafka_manager.py], and the properties of event dispatch, of the
    namespace facade and of the Kafka backed publish/listen pair. *)

From stdpp Require Import gmap strings list.
From Stdlib Require Import ZArith Lia.

Local Open Scope string_scope.

(** ** Python values, exceptions and coroutines *)

Module Py.

(** The values that travel as event arguments, handler results and
    keyword arguments.  [VRef] stands for any other object (a callback,
    a session handle), known by its identity only. *)
#[warnings="-register-all"] Inductive value : Type :=
| VNone
| VBool (b : bool)
| VInt (n : Z)
| VStr (s : string)
| VBytes (b : list Byte.byte)
| VList (l : list value)
| VDict (d : list (value * value))
| VRef (id : positive).

(** [bool(v)] *)
Definition truthy (v : value) : bool :=
  match v with
  | VNone => false
  | VBool b => b
  | VInt n => negb (n =? 0)%Z
  | VStr s => negb (String.eqb s "")
  | VBytes b => match b with [] => false | _ => true end
  | VList l => match l with [] => false | _ => true end
  | VDict d => match d with [] => false | _ => true end
  | VRef _ => true
  end.

(** [a or b] *)
Definition py_or (a b : value) : value := if truthy a then a else b.

(** [s[n:]] on a string *)
Fixpoint slice_from (n : nat) (s : string) : string :=
  match n, s with
  | O, _ => s
  | S n', String _ s' => slice_from n' s'
  | S _, EmptyString => EmptyString
  end.

(** Exceptions.  [CancelledError] is [asyncio.CancelledError]; [Exception]
    is any class outside the ones named here. *)
Inductive exn : Type :=
| CancelledError
| TypeError (msg : string)
| RuntimeError (msg : string)
| PickleError (msg : string)
| KafkaError (msg : string)
| Exception (cls msg : string).

Inductive outcome : Type :=
| Return (v : value)
| Raise (e : exn).

(** What the event loop delivers to a suspended coroutine: it resumes it,
    or it throws [CancelledError] into it at the point of suspension. *)
Inductive signal : Type := Resume | Cancel.

(** A coroutine being awaited, over a state [S]: it has finished with an
    outcome, or it is suspended in state [s] and continues from the signal
    and the state it is woken up in. *)
Inductive task (S : Type) : Type :=
| Done (o : outcome) (s : S)
| Suspend (s : S) (k : signal -> S -> task S).
Arguments Done {S} o s.
Arguments Suspend {S} s k.

(** The event loop driving one task: each entry of the schedule is the
    signal of one wake-up, with what the other tasks did to the state in
    between.  [None]: the task is still suspended when the schedule ends.
    A [task] is a coroutine that has run its first step; a cancellation that
    comes before that step is the matter of [run_task] below. *)
Fixpoint run {S : Type} (sched : list (signal * (S -> S))) (t : task S) {struct t}
  : option (outcome * S) :=
  match t with
  | Done o s => Some (o, s)
  | Suspend s k =>
      match sched with
      | [] => None
      | (sg, env) :: rest => run rest (k sg (env s))
      end
  end.

(** [try: ret = await t / except asyncio.CancelledError: ret = None] *)
Fixpoint try_await {S : Type} (t : task S) : task S :=
  match t with
  | Done (Raise CancelledError) s => Done (Return VNone) s
  | Done o s => Done o s
  | Suspend s k => Suspend s (fun sg s' => try_await (k sg s'))
  end.

End Py.
Export Py.

(** ** Namespace instances *)

Section Handlers.
Context {W : Type}.

(** An attribute of a namespace instance, as [trigger_event] sees it:
    a plain method, a coroutine method ([asyncio.iscoroutinefunction]
    holds), or a value that is not callable.  Handlers act on the
    application state [W]. *)
Inductive attribute : Type :=
| Function (f : list value -> W -> outcome * W)
| CoroutineFunction (f : list value -> W -> task W)
| Data (v : value).

(** The state a dispatch runs in: the application state and the log of
    handler invocations, each with the handler's name and arguments. *)
Record world : Type := World { app : W; calls : list (string * list value) }.

Definition on_app (env : W -> W) (st : world) : world :=
  World (env (app st)) (calls st).

(** A handler's coroutine seen in [world]: it acts on [app] only. *)
Fixpoint in_world (t : task W) (log : list (string * list value)) : task world :=
  match t with
  | Done o a => Done o (World a log)
  | Suspend a k => Suspend (World a log) (fun sg st => in_world (k sg (app st)) (calls st))
  end.

(** The log once the handler [name] has been called with [args]. *)
Definition invoked (st : world) (name : string) (args : list value) : list (string * list value) :=
  calls st ++ [(name, args)].

End Handlers.
Arguments attribute W : clear implicits.
Arguments world W : clear implicits.

(** A schedule over [W] seen in [world]: the other tasks act on [app]. *)
Definition sched_in_world {W : Type} (sched : list (signal * (W -> W)))
  : list (signal * (world W -> world W)) :=
  map (fun p => (p.1, on_app p.2)) sched.

(** What [try_await] makes of a finished task. *)
Definition swallow_cancel {S : Type} (r : outcome * S) : outcome * S :=
  match r with
  | (Raise CancelledError, s) => (Return VNone, s)
  | _ => r
  end.

(** How the event loop starts a coroutine wrapped in a task: it runs its
    first step, or, when the task was cancelled before that step, it throws
    [CancelledError] into the coroutine before any of its body has run. *)
Inductive start : Type := Started | CancelledBeforeStart.

Definition run_task {S : Type} (c : start) (sched : list (signal * (S -> S)))
    (body : S -> task S) (s : S) : option (outcome * S) :=
  match c with
  | CancelledBeforeStart => Some (Raise CancelledError, s)
  | Started => run sched (body s)
  end.

(** The owning server, by the methods the facade calls on it.  The arguments
    follow the keywords of each call: [emit event data room skip_sid
    namespace callback], and so on. *)
Module Server.
Record t (W : Type) : Type := Make {
  emit : value -> value -> value -> value -> value -> value -> W -> task W;
  send : value -> value -> value -> value -> value -> W -> task W;
  close_room : value -> value -> W -> task W;
  get_session : value -> value -> W -> task W;
  save_session : value -> value -> value -> W -> task W;
  session : value -> value -> W -> outcome * W;
  disconnect : value -> value -> W -> task W
}.
Arguments Make {W}.
Arguments emit {W}.
Arguments send {W}.
Arguments close_room {W}.
Arguments get_session {W}.
Arguments save_session {W}.
Arguments session {W}.
Arguments disconnect {W}.
End Server.

(** The owning client: [emit event data namespace callback],
    [send data namespace callback], [disconnect ()]. *)
Module Client.
Record t (W : Type) : Type := Make {
  emit : value -> value -> value -> value -> W -> task W;
  send : value -> value -> value -> W -> task W;
  disconnect : W -> task W
}.
Arguments Make {W}.
Arguments emit {W}.
Arguments send {W}.
Arguments disconnect {W}.
End Client.

(** ** [class AsyncNamespace] *)

Module AsyncNamespace.
Section Methods.
Context {W : Type}.

Record t : Type := Make {
  attrs : gmap string (attribute W);
  namespace : value;
  server : Server.t W
}.

Definition is_asyncio_based (self : t) : bool := true.

(** [async def trigger_event(self, event, *args)] *)
Definition trigger_event (self : t) (event : string) (args : list value)
    (st : world W) : task (world W) :=
  let handler_name := "on_" +:+ event in
  match attrs self !! handler_name with
  | Some handler =>
      match handler with
      | CoroutineFunction f =>
          try_await (in_world (f args (app st)) (invoked st handler_name args))
      | Function f =>
          let '(ret, a) := f args (app st) in
          Done ret (World a (invoked st handler_name args))
      | Data _ => Done (Raise (TypeError "object is not callable")) st
      end
  | None => Done (Return VNone) st
  end.

(** The facade.  An argument left out by the caller is [VNone], the
    default of every optional parameter. *)
Definition emit (self : t) (event data room skip_sid s_namespace callback : value)
  : W -> task W :=
  Server.emit (server self) event data room skip_sid
    (py_or s_namespace (namespace self)) callback.

Definition send (self : t) (data room skip_sid s_namespace callback : value)
  : W -> task W :=
  Server.send (server self) data room skip_sid
    (py_or s_namespace (namespace self)) callback.

Definition close_room (self : t) (room s_namespace : value) : W -> task W :=
  Server.close_room (server self) room (py_or s_namespace (namespace self)).

Definition get_session (self : t) (sid s_namespace : value) : W -> task W :=
  Server.get_session (server self) sid (py_or s_namespace (namespace self)).

Definition save_session (self : t) (sid session s_namespace : value) : W -> task W :=
  Server.save_session (server self) sid session (py_or s_namespace (namespace self)).

Definition session (self : t) (sid s_namespace : value) : W -> outcome * W :=
  Server.session (server self) sid (py_or s_namespace (namespace self)).

Definition disconnect (self : t) (sid s_namespace : value) : W -> task W :=
  Server.disconnect (server self) sid (py_or s_namespace (namespace self)).

End Methods.
Arguments t W : clear implicits.
End AsyncNamespace.

(** ** [class AsyncClientNamespace] *)

Module AsyncClientNamespace.
Section Methods.
Context {W : Type}.

Record t : Type := Make {
  attrs : gmap string (attribute W);
  namespace : value;
  client : Client.t W
}.

Definition is_asyncio_based (self : t) : bool := true.

(** [async def trigger_event(self, event, *args)] *)
Definition trigger_event (self : t) (event : string) (args : list value)
    (st : world W) : task (world W) :=
  let handler_name := "on_" +:+ event in
  match attrs self !! handler_name with
  | Some handler =>
      match handler with
      | CoroutineFunction f =>
          try_await (in_world (f args (app st)) (invoked st handler_name args))
      | Function f =>
          let '(ret, a) := f args (app st) in
          Done ret (World a (invoked st handler_name args))
      | Data _ => Done (Raise (TypeError "object is not callable")) st
      end
  | None => Done (Return VNone) st
  end.

Definition emit (self : t) (event data s_namespace callback : value) : W -> task W :=
  Client.emit (client self) event data (py_or s_namespace (namespace self)) callback.

Definition send (self : t) (data s_namespace callback : value) : W -> task W :=
  Client.send (client self) data (py_or s_namespace (namespace self)) callback.

Definition disconnect (self : t) : W -> task W :=
  Client.disconnect (client self).

End Methods.
Arguments t W : clear implicits.
End AsyncClientNamespace.

(** ** [class KafkaManager] *)

(** [pickle], Python's object serializer, by its two entry points.  Both can
    raise: [dumps] on an object it cannot serialize, [loads] on bytes that
    are not a pickle. *)
Module Pickle.
Record t : Type := Make {
  dumps : value -> exn + list Byte.byte;
  loads : list Byte.byte -> exn + value
}.
End Pickle.

(** A record of the broker as a consumer hands it out: [message.topic] and
    [message.value]. *)
Module Message.
Record t : Type := Make { topic : string; value : list Byte.byte }.
End Message.

Module KafkaManager.

(** What the manager does to the outside, in order: the base constructor
    runs, a producer or a consumer is created and connects, a received
    broadcast is applied to the local connections. *)
Inductive event : Type :=
| BaseInit (channel : string) (write_only : bool)
| ProducerCreated (bootstrap_servers : string)
| ConsumerCreated (topic bootstrap_servers : string)
| Applied (message : Py.value).

(** The outside of one process: the trace of [event]s, whether the brokers
    can be reached, the records the producer has buffered and the records
    the broker holds, oldest first. *)
Record env : Type := Env {
  trace : list event;
  reachable : bool;
  pending : list Message.t;
  broker : list Message.t
}.

(** Computations that act on [env] and may raise. *)
Definition M (A : Type) : Type := env -> (exn + A) * env.

Definition ret {A : Type} (a : A) : M A := fun e => (inr a, e).

Definition bind {A B : Type} (m : M A) (k : A -> M B) : M B := fun e =>
  match m e with
  | (inr a, e') => k a e'
  | (inl x, e') => (inl x, e')
  end.

Notation "'let!' x ':=' m 'in' k" := (bind m (fun x => k))
  (at level 10, x name, m at level 100, k at level 200).

Definition raise {A : Type} (x : exn) : M A := fun e => (inl x, e).

Definition lift {A : Type} (r : exn + A) : M A := fun e => (r, e).

Definition log (ev : event) : M unit := fun e =>
  (inr tt, Env (trace e ++ [ev]) (reachable e) (pending e) (broker e)).

(** The global [kafka] of the module: the imported package, or [None] when
    the import failed. *)
Inductive package : Type := KafkaPython.

(** [kafka.KafkaProducer(bootstrap_servers=...)] and
    [kafka.KafkaConsumer(topic, bootstrap_servers=...)]: each connects to the
    brokers when it is created. *)
Record KafkaProducer : Type := Producer { producer_servers : string }.
Record KafkaConsumer : Type := Consumer { subscription : string; consumer_servers : string }.

Definition new_producer (lib : package) (bootstrap_servers : string) : M KafkaProducer :=
  let! _ := log (ProducerCreated bootstrap_servers) in
  (fun e => if reachable e then (inr (Producer bootstrap_servers), e)
            else (inl (KafkaError "NoBrokersAvailable"), e)).

Definition new_consumer (lib : package) (topic bootstrap_servers : string) : M KafkaConsumer :=
  let! _ := log (ConsumerCreated topic bootstrap_servers) in
  (fun e => if reachable e then (inr (Consumer topic bootstrap_servers), e)
            else (inl (KafkaError "NoBrokersAvailable"), e)).

(** [producer.send(topic, value=...)] buffers one record. *)
Definition producer_send (p : KafkaProducer) (topic : string) (value : list Byte.byte) : M unit :=
  fun e => if reachable e
           then (inr tt, Env (trace e) (reachable e) (pending e ++ [Message.Make topic value]) (broker e))
           else (inl (KafkaError "KafkaTimeoutError"), e).

(** [producer.flush()] hands the buffered records to the broker. *)
Definition producer_flush (p : KafkaProducer) : M unit :=
  fun e => (inr tt, Env (trace e) (reachable e) [] (broker e ++ pending e)).

Record t : Type := Make {
  channel : string;
  write_only : bool;
  kafka_url : string;
  producer : KafkaProducer;
  consumer : KafkaConsumer
}.

Definition name : string := "kafka".

Definition quote : string := String (Ascii.ascii_of_nat 34) "".

Definition not_installed : string :=
  "kafka-python package is not installed (Run " +:+ quote +:+
  "pip install kafka-python" +:+ quote +:+ " in your virtualenv).".

(** Modelled from the spec: [PubSubManager.__init__], the constructor of the
    base class in [socketioN/pubsub_manager.py], which is not among the
    sources.  It keeps the two construction-time options, the channel name
    and the write-only flag. *)
Definition PubSubManager__init__ (channel : string) (write_only : bool) : M (string * bool) :=
  let! _ := log (BaseInit channel write_only) in ret (channel, write_only).

(** [def __init__(self, url='kafka://localhost:9092', channel='socketioN',
    write_only=False)], with the global [kafka] as first argument. *)
Definition __init__ (kafka : option package) (url channel : string) (write_only : bool) : M t :=
  match kafka with
  | None => raise (RuntimeError not_installed)
  | Some lib =>
      let! base := PubSubManager__init__ channel write_only in
      let kafka_url :=
        if negb (String.eqb url "kafka://") then slice_from 8 url else "localhost:9092" in
      let! producer := new_producer lib kafka_url in
      let! consumer := new_consumer lib base.1 kafka_url in
      ret (Make base.1 base.2 kafka_url producer consumer)
  end.

(** What a generator has done once its input is used up: the values it
    yielded, in order, and the exception that ended it, if one did. *)
Record generated (A : Type) : Type := Generated { yielded : list A; raised : option exn }.
Arguments Generated {A}.
Arguments yielded {A}.
Arguments raised {A}.

Section Codec.
Context (pickle : Pickle.t).

(** [def _publish(self, data)] *)
Definition _publish (self : t) (data : Py.value) : M unit :=
  let! bytes := lift (Pickle.dumps pickle data) in
  let! _ := producer_send (producer self) (channel self) bytes in
  producer_flush (producer self).

(** [def _kafka_listen(self)], on the records the consumer delivers. *)
Fixpoint _kafka_listen (self : t) (stream : list Message.t) : list Message.t :=
  match stream with
  | [] => []
  | message :: rest => message :: _kafka_listen self rest
  end.

Fixpoint listen_loop (self : t) (messages : list Message.t) : generated Py.value :=
  match messages with
  | [] => Generated [] None
  | message :: rest =>
      if String.eqb (Message.topic message) (channel self) then
        match Pickle.loads pickle (Message.value message) with
        | inr v => let g := listen_loop self rest in Generated (v :: yielded g) (raised g)
        | inl x => Generated [] (Some x)
        end
      else listen_loop self rest
  end.

(** [def _listen(self)] *)
Definition _listen (self : t) (stream : list Message.t) : generated Py.value :=
  listen_loop self (_kafka_listen self stream).

(** Modelled from the spec: the consumer loop of [PubSubManager], in
    [socketioN/pubsub_manager.py], which is not among the sources.  It
    applies locally each message that [_listen] yields, until the generator
    ends. *)
Definition consumer_loop (self : t) (stream : list Message.t) : M unit := fun e =>
  let g := _listen self stream in
  (match raised g with Some x => inl x | None => inr tt end,
   Env (trace e ++ map Applied (yielded g)) (reachable e) (pending e) (broker e)).

(** Modelled from the spec: the start of a manager, [PubSubManager.initialize]
    in the same missing file.  The consumer loop is started unless the
    manager is write-only. *)
Definition initialize (self : t) (stream : list Message.t) : M unit :=
  if write_only self then ret tt else consumer_loop self stream.

End Codec.
End KafkaManager.

(** ** Sample instances, used to run the definitions on concrete inputs *)

(** [async def on_message(self, msg): await asyncio.sleep(...); return "ack"]:
    one suspension; woken up it returns, cancelled it lets the
    [CancelledError] through.  The state counts the handlers that ran. *)
Definition on_message_ack (args : list value) (a : nat) : task nat :=
  Suspend (S a) (fun sg a' =>
    match sg with
    | Resume => Done (Return (VStr "ack")) a'
    | Cancel => Done (Raise CancelledError) a'
    end).

(** [def on_first(self, *args): return args[0]], a plain handler that
    raises [IndexError] without arguments. *)
Definition on_first (args : list value) (a : nat) : outcome * nat :=
  match args with
  | v :: _ => (Return v, S a)
  | [] => (Raise (Exception "IndexError" "tuple index out of range"), S a)
  end.

(** [async def on_load(self): raise KeyError(...)] after one suspension. *)
Definition on_load (args : list value) (a : nat) : task nat :=
  Suspend (S a) (fun sg a' =>
    match sg with
    | Resume => Done (Raise (Exception "KeyError" "missing")) a'
    | Cancel => Done (Raise CancelledError) a'
    end).

Definition sample_attrs : gmap string (attribute nat) :=
  <["on_message" := CoroutineFunction on_message_ack]>
    (<["on_first" := Function on_first]>
       (<["on_load" := CoroutineFunction on_load]> ∅)).

(** A server and a client that answer each call with the namespace they
    were called with. *)
Definition echo_server : Server.t nat :=
  Server.Make
    (fun _ _ _ _ ns _ a => Done (Return ns) a)
    (fun _ _ _ ns _ a => Done (Return ns) a)
    (fun _ ns a => Done (Return ns) a)
    (fun _ ns a => Done (Return ns) a)
    (fun _ _ ns a => Done (Return ns) a)
    (fun _ ns a => (Return ns, a))
    (fun _ ns a => Done (Return ns) a).

Definition echo_client : Client.t nat :=
  Client.Make
    (fun _ _ ns _ a => Done (Return ns) a)
    (fun _ ns _ a => Done (Return ns) a)
    (fun a => Done (Return VNone) a).

Definition chat_namespace : AsyncNamespace.t nat :=
  AsyncNamespace.Make sample_attrs (VStr "/chat") echo_server.

Definition chat_client_namespace : AsyncClientNamespace.t nat :=
  AsyncClientNamespace.Make sample_attrs (VStr "/chat") echo_client.






(** A codec for a fragment of the values: one tag byte, then the content. *)
Definition sample_dumps (v : value) : exn + list Byte.byte :=
  match v with
  | VNone => inr [Byte.x4e]
  | VBytes b => inr (Byte.x42 :: b)
  | _ => inl (PickleError "cannot pickle object")
  end.

Definition sample_loads (bs : list Byte.byte) : exn + value :=
  match bs with
  | [Byte.x4e] => inr VNone
  | Byte.x42 :: b => inr (VBytes b)
  | _ => inl (PickleError "invalid load key")
  end.

Definition sample_pickle : Pickle.t := Pickle.Make sample_dumps sample_loads.

Definition idle_env : KafkaManager.env := KafkaManager.Env [] true [] [].

Definition sample_manager : KafkaManager.t :=
  KafkaManager.Make "socketioN" false "localhost:9092"
    (KafkaManager.Producer "localhost:9092")
    (KafkaManager.Consumer "socketioN" "localhost:9092").

Definition sample_writer : KafkaManager.t :=
  KafkaManager.Make "socketioN" true "localhost:9092"
    (KafkaManager.Producer "localhost:9092")
    (KafkaManager.Consumer "socketioN" "localhost:9092").

(** Three records on the channel, the second of which is not a pickle, and
    one record of another topic. *)
Definition first_record : Message.t := Message.Make "socketioN" [Byte.x4e].
Definition malformed_record : Message.t := Message.Make "socketioN" [Byte.xff; Byte.x00].
Definition last_record : Message.t := Message.Make "socketioN" [Byte.x42; Byte.x01].
Definition foreign_record : Message.t := Message.Make "metrics" [Byte.x4e].

(** ** Coroutines: how [run] sees [in_world] and [try_await] *)

Lemma run_in_world {W : Type} (t : task W) :
  forall sched log,
    run (sched_in_world sched) (in_world t log) =
    (fun r => (r.1, World r.2 log)) <$> run sched t.
Proof.
  induction t as [o a | a k IH]; intros sched log; simpl.
  - reflexivity.
  - destruct sched as [| [sg env] rest]; simpl; [reflexivity |].
    apply IH.
Qed.

Lemma run_try_await {S : Type} (t : task S) :
  forall sched, run sched (try_await t) = swallow_cancel <$> run sched t.
Proof.
  induction t as [o s | s k IH]; intros sched; simpl.
  - destruct o as [v | []]; reflexivity.
  - destruct sched as [| [sg env] rest]; simpl; [reflexivity |].
    apply IH.
Qed.

Lemma run_awaited_handler {W : Type} (t : task W) sched log r :
  run sched t = Some r ->
  run (sched_in_world sched) (try_await (in_world t log)) =
  Some (swallow_cancel (r.1, World r.2 log)).
Proof.
  intros Hrun. rewrite run_try_await, run_in_world, Hrun. reflexivity.
Qed.

(** ** Event dispatch *)

(** Unfolds a dispatch whose attribute lookup is known. *)
Ltac dispatch_to H :=
  unfold AsyncNamespace.trigger_event, AsyncClientNamespace.trigger_event;
  rewrite H; simpl.

(** C1. An event whose handler attribute ["on_" + event] is missing: both
    [trigger_event]s finish at once with [None], in the state they started
    in, so that no handler has been called and nothing else has happened. *)
Theorem trigger_event_unhandled {W : Type}
    (self : AsyncNamespace.t W) (cself : AsyncClientNamespace.t W)
    (event : string) (args : list value) (st : world W) :
  (AsyncNamespace.attrs self !! ("on_" +:+ event) = None ->
   AsyncNamespace.trigger_event self event args st = Done (Return VNone) st) /\
  (AsyncClientNamespace.attrs cself !! ("on_" +:+ event) = None ->
   AsyncClientNamespace.trigger_event cself event args st = Done (Return VNone) st).
Proof.
  split; intros Hmissing.
  - unfold AsyncNamespace.trigger_event. now rewrite Hmissing.
  - unfold AsyncClientNamespace.trigger_event. now rewrite Hmissing.
Qed.

Lemma trigger_event_unhandled_witness :
  AsyncNamespace.trigger_event chat_namespace "typing" [VStr "hi"] (World 0 [])
    = Done (Return VNone) (World 0 []) /\
  AsyncClientNamespace.trigger_event chat_client_namespace "typing" [VStr "hi"] (World 0 [])
    = Done (Return VNone) (World 0 []).
Proof.
  destruct (trigger_event_unhandled chat_namespace chat_client_namespace
              "typing" [VStr "hi"] (World 0 [])) as [Hs Hc].
  split; [apply Hs | apply Hc]; vm_compute; reflexivity.
Defined.




(** C3. A handler that returns.  The handler is called once, with the
    arguments of the dispatch and nothing else (the log grows by that one
    call), and [trigger_event] returns what the handler returned: at once
    for a plain handler, and when the awaited coroutine finishes for a
    coroutine handler. *)
Theorem trigger_event_handler_returns {W : Type}
    (self : AsyncNamespace.t W) (cself : AsyncClientNamespace.t W)
    (event : string) (args : list value) (st : world W) :
  let name := "on_" +:+ event in
  (forall f v a,
     AsyncNamespace.attrs self !! name = Some (Function f) ->
     f args (app st) = (Return v, a) ->
     AsyncNamespace.trigger_event self event args st
       = Done (Return v) (World a (calls st ++ [(name, args)]))) /\
  (forall f sched v a,
     AsyncNamespace.attrs self !! name = Some (CoroutineFunction f) ->
     run sched (f args (app st)) = Some (Return v, a) ->
     run (sched_in_world sched) (AsyncNamespace.trigger_event self event args st)
       = Some (Return v, World a (calls st ++ [(name, args)]))) /\
  (forall f v a,
     AsyncClientNamespace.attrs cself !! name = Some (Function f) ->
     f args (app st) = (Return v, a) ->
     AsyncClientNamespace.trigger_event cself event args st
       = Done (Return v) (World a (calls st ++ [(name, args)]))) /\
  (forall f sched v a,
     AsyncClientNamespace.attrs cself !! name = Some (CoroutineFunction f) ->
     run sched (f args (app st)) = Some (Return v, a) ->
     run (sched_in_world sched) (AsyncClientNamespace.trigger_event cself event args st)
       = Some (Return v, World a (calls st ++ [(name, args)]))).
Proof.
  intros name. subst name. repeat split.
  - intros f v a Hattr Hf. dispatch_to Hattr. now rewrite Hf.
  - intros f sched v a Hattr Hrun. dispatch_to Hattr.
    now rewrite (run_awaited_handler _ _ _ _ Hrun).
  - intros f v a Hattr Hf. dispatch_to Hattr. now rewrite Hf.
  - intros f sched v a Hattr Hrun. dispatch_to Hattr.
    now rewrite (run_awaited_handler _ _ _ _ Hrun).
Qed.

Lemma trigger_event_handler_returns_witness :
  AsyncNamespace.trigger_event chat_namespace "first" [VInt 7; VInt 8] (World 0 [])
    = Done (Return (VInt 7)) (World 1 [("on_first", [VInt 7; VInt 8])]) /\
  run (sched_in_world [(Resume, id)])
      (AsyncNamespace.trigger_event chat_namespace "message" [VStr "hi"] (World 0 []))
    = Some (Return (VStr "ack"), World 1 [("on_message", [VStr "hi"])]) /\
  AsyncClientNamespace.trigger_event chat_client_namespace "first" [VInt 7; VInt 8] (World 0 [])
    = Done (Return (VInt 7)) (World 1 [("on_first", [VInt 7; VInt 8])]) /\
  run (sched_in_world [(Resume, id)])
      (AsyncClientNamespace.trigger_event chat_client_namespace "message" [VStr "hi"] (World 0 []))
    = Some (Return (VStr "ack"), World 1 [("on_message", [VStr "hi"])]).
Proof.
  split; [| split; [| split]].
  - destruct (trigger_event_handler_returns chat_namespace chat_client_namespace
                "first" [VInt 7; VInt 8] (World 0 [])) as (H & _).
    apply (H on_first); vm_compute; reflexivity.
  - destruct (trigger_event_handler_returns chat_namespace chat_client_namespace
                "message" [VStr "hi"] (World 0 [])) as (_ & H & _).
    apply (H on_message_ack [(Resume, id)] (VStr "ack") 1); vm_compute; reflexivity.
  - destruct (trigger_event_handler_returns chat_namespace chat_client_namespace
                "first" [VInt 7; VInt 8] (World 0 [])) as (_ & _ & H & _).
    apply (H on_first); vm_compute; reflexivity.
  - destruct (trigger_event_handler_returns chat_namespace chat_client_namespace
                "message" [VStr "hi"] (World 0 [])) as (_ & _ & _ & H).
    apply (H on_message_ack [(Resume, id)] (VStr "ack") 1); vm_compute; reflexivity.
Defined.

(** ** The namespace facade *)

(** C4, as stated, fails: an override that the caller gives but that is
    falsy, here the empty string, is not the namespace of the forwarded
    call; the bound namespace is.  And [AsyncClientNamespace.disconnect]
    makes the same call whatever the bound namespace: none is passed on. *)
Lemma facade_override_counterexample :
  AsyncNamespace.emit chat_namespace (VStr "news") VNone VNone VNone (VStr "") VNone 0
    = Server.emit echo_server (VStr "news") VNone VNone VNone (VStr "/chat") VNone 0 /\
  AsyncNamespace.emit chat_namespace (VStr "news") VNone VNone VNone (VStr "") VNone 0
    <> Server.emit echo_server (VStr "news") VNone VNone VNone (VStr "") VNone 0 /\
  AsyncClientNamespace.disconnect (AsyncClientNamespace.Make sample_attrs (VStr "/a") echo_client)
    = AsyncClientNamespace.disconnect (AsyncClientNamespace.Make sample_attrs (VStr "/b") echo_client).
Proof.
  split; [reflexivity | split; [| reflexivity]].
  vm_compute. intros Heq. discriminate Heq.
Qed.

(** C4, amended.  The seven operations of [AsyncNamespace] and [emit] and
    [send] of [AsyncClientNamespace] forward the call to the owner with every
    other argument as given, and with the namespace [s_namespace or
    self.namespace]: the override when it is truthy, the bound namespace when
    it is [None] or any other falsy value. *)
Theorem facade_forwards_namespace {W : Type}
    (self : AsyncNamespace.t W) (cself : AsyncClientNamespace.t W)
    (event data room skip_sid sid session callback override : value) :
  let srv := AsyncNamespace.server self in
  let cli := AsyncClientNamespace.client cself in
  forall ns cns : value,
    (truthy override = true /\ ns = override /\ cns = override) \/
    (truthy override = false /\ ns = AsyncNamespace.namespace self
                             /\ cns = AsyncClientNamespace.namespace cself) ->
    AsyncNamespace.emit self event data room skip_sid override callback
      = Server.emit srv event data room skip_sid ns callback /\
    AsyncNamespace.send self data room skip_sid override callback
      = Server.send srv data room skip_sid ns callback /\
    AsyncNamespace.close_room self room override = Server.close_room srv room ns /\
    AsyncNamespace.get_session self sid override = Server.get_session srv sid ns /\
    AsyncNamespace.save_session self sid session override
      = Server.save_session srv sid session ns /\
    AsyncNamespace.session self sid override = Server.session srv sid ns /\
    AsyncNamespace.disconnect self sid override = Server.disconnect srv sid ns /\
    AsyncClientNamespace.emit cself event data override callback
      = Client.emit cli event data cns callback /\
    AsyncClientNamespace.send cself data override callback
      = Client.send cli data cns callback.
Proof.
  intros srv cli ns cns [(Ht & -> & ->) | (Ht & -> & ->)];
    unfold AsyncNamespace.emit, AsyncNamespace.send, AsyncNamespace.close_room,
      AsyncNamespace.get_session, AsyncNamespace.save_session,
      AsyncNamespace.session, AsyncNamespace.disconnect,
      AsyncClientNamespace.emit, AsyncClientNamespace.send, py_or;
    rewrite Ht; repeat split; reflexivity.
Qed.

Lemma facade_forwards_namespace_witness :
  AsyncNamespace.emit chat_namespace (VStr "news") (VInt 1) (VStr "lobby") VNone
      (VStr "/admin") VNone
    = Server.emit echo_server (VStr "news") (VInt 1) (VStr "lobby") VNone
        (VStr "/admin") VNone /\
  AsyncNamespace.close_room chat_namespace (VStr "lobby") VNone
    = Server.close_room echo_server (VStr "lobby") (VStr "/chat") /\
  AsyncClientNamespace.send chat_client_namespace (VInt 1) (VStr "") VNone
    = Client.send echo_client (VInt 1) (VStr "/chat") VNone.
Proof.
  split; [| split].
  - apply (facade_forwards_namespace chat_namespace chat_client_namespace
             (VStr "news") (VInt 1) (VStr "lobby") VNone VNone VNone VNone
             (VStr "/admin") (VStr "/admin") (VStr "/admin")).
    left. repeat split; reflexivity.
  - apply (facade_forwards_namespace chat_namespace chat_client_namespace
             VNone VNone (VStr "lobby") VNone VNone VNone VNone
             VNone (VStr "/chat") (VStr "/chat")).
    right. repeat split; reflexivity.
  - apply (facade_forwards_namespace chat_namespace chat_client_namespace
             VNone (VInt 1) VNone VNone VNone VNone VNone
             (VStr "") (VStr "/chat") (VStr "/chat")).
    right. repeat split; reflexivity.
Defined.

(** ** The Kafka manager: construction *)

Import KafkaManager.

(** The address the producer and the consumer are given. *)
Lemma init_with_kafka (lib : package) (url channel : string) (wo : bool) (e : env) :
  let addr := if negb (String.eqb url "kafka://") then slice_from 8 url
              else "localhost:9092" in
  __init__ (Some lib) url channel wo e =
  if reachable e
  then (inr (Make channel wo addr (Producer addr) (Consumer channel addr)),
        Env (trace e ++ [BaseInit channel wo; ProducerCreated addr;
                         ConsumerCreated channel addr])
            (reachable e) (pending e) (broker e))
  else (inl (KafkaError "NoBrokersAvailable"),
        Env (trace e ++ [BaseInit channel wo; ProducerCreated addr])
            (reachable e) (pending e) (broker e)).
Proof.
  intros addr. subst addr. destruct e as [tr up pe br].
  unfold __init__, PubSubManager__init__, new_producer, new_consumer, bind, log, ret.
  simpl. destruct up; simpl; rewrite <- ?app_assoc; reflexivity.
Qed.

Lemma slice_from_suffix (n : nat) (s : string) :
  exists pre, s = pre +:+ slice_from n s /\ String.length pre = Nat.min n (String.length s).
Proof.
  revert s. induction n as [| n IH]; intros s.
  - exists "". split; reflexivity.
  - destruct s as [| c s]; simpl.
    + exists "". split; reflexivity.
    + destruct (IH s) as (pre & Heq & Hlen).
      exists (String c pre). split.
      * change (String c s = String c (pre +:+ slice_from n s)). now rewrite <- Heq.
      * simpl. now rewrite Hlen.
Qed.

(** C5. Without the kafka package the constructor raises [RuntimeError]
    and has done nothing before: no base constructor, no producer, no
    consumer.  With the package the constructor goes past that test: the base
    constructor runs first, and the result is not that error. *)
Theorem init_requires_kafka (url channel : string) (wo : bool) (e : env) :
  __init__ None url channel wo e = (inl (RuntimeError not_installed), e) /\
  (forall lib : package,
     exists r e' later,
       __init__ (Some lib) url channel wo e = (r, e') /\
       r <> inl (RuntimeError not_installed) /\
       trace e' = (trace e ++ BaseInit channel wo :: later)%list).
Proof.
  split; [reflexivity |].
  intros lib. rewrite init_with_kafka. destruct (reachable e); simpl.
  - eexists _, _, _. split; [reflexivity | split; [discriminate | reflexivity]].
  - eexists _, _, _. split; [reflexivity | split; [discriminate | reflexivity]].
Qed.

(** C10. The address of a manager that was constructed: ["localhost:9092"]
    when the url is exactly ["kafka://"], and for every other url the url
    without its first eight characters (what is left of a shorter url is
    empty).  The producer and the consumer are created with that address. *)
Theorem init_broker_address (lib : package) (url channel : string) (wo : bool)
    (e e' : env) (self : t) :
  __init__ (Some lib) url channel wo e = (inr self, e') ->
  (url = "kafka://" -> kafka_url self = "localhost:9092") /\
  (url <> "kafka://" ->
     exists pre, url = pre +:+ kafka_url self /\
                 String.length pre = Nat.min 8 (String.length url)) /\
  producer_servers (producer self) = kafka_url self /\
  consumer_servers (consumer self) = kafka_url self.
Proof.
  rewrite init_with_kafka. destruct (reachable e); [| discriminate].
  intros [= <- _]. cbn [kafka_url producer consumer producer_servers consumer_servers].
  split; [| split; [| split; reflexivity]].
  - intros ->. reflexivity.
  - intros Hurl. apply String.eqb_neq in Hurl. rewrite Hurl.
    cbn [negb]. exact (slice_from_suffix 8 url).
Qed.

Lemma init_broker_address_witness :
  exists pre, "kafka://broker1:9093" = pre +:+ "broker1:9093" /\
              String.length pre = Nat.min 8 (String.length "kafka://broker1:9093").
Proof.
  assert (Hinit : __init__ (Some KafkaPython) "kafka://broker1:9093" "socketioN" false idle_env
                  = (inr (Make "socketioN" false "broker1:9093" (Producer "broker1:9093")
                            (Consumer "socketioN" "broker1:9093")),
                     Env [BaseInit "socketioN" false; ProducerCreated "broker1:9093";
                          ConsumerCreated "socketioN" "broker1:9093"] true [] []))
    by (vm_compute; reflexivity).
  destruct (init_broker_address _ _ _ _ _ _ _ Hinit) as (_ & Hother & _).
  apply Hother. discriminate.
Defined.

(** ** The Kafka manager: publish and listen *)

Section PublishListen.
Context (pickle : Pickle.t).

Lemma kafka_listen_all (self : t) (stream : list Message.t) :
  _kafka_listen self stream = stream.
Proof. induction stream as [| m rest IH]; simpl; [reflexivity | now rewrite IH]. Qed.

(** The loop over two batches: the second is reached when the first ended
    without an exception. *)
Lemma listen_app (self : t) (pre post : list Message.t) :
  raised (_listen pickle self pre) = None ->
  _listen pickle self (pre ++ post) =
  Generated (yielded (_listen pickle self pre) ++ yielded (_listen pickle self post))
            (raised (_listen pickle self post)).
Proof.
  unfold _listen. rewrite !kafka_listen_all.
  induction pre as [| m pre IH]; simpl; intros Hok.
  - now destruct (listen_loop pickle self post).
  - destruct (String.eqb (Message.topic m) (channel self)); [| now apply IH].
    destruct (Pickle.loads pickle (Message.value m)) as [x | v]; simpl in *.
    + discriminate.
    + now rewrite (IH Hok).
Qed.

Lemma publish_ok (self : t) (data : Py.value) (bytes : list Byte.byte) (e : env) :
  Pickle.dumps pickle data = inr bytes ->
  reachable e = true ->
  _publish pickle self data e =
  (inr tt, Env (trace e) true []
             (broker e ++ pending e ++ [Message.Make (channel self) bytes])).
Proof.
  intros Hdumps Hup. unfold _publish, bind, lift, producer_send, producer_flush.
  rewrite Hdumps, Hup. reflexivity.
Qed.

End PublishListen.

(** C6. The values that [_listen] yields are, in order, the decoded byte
    values of some of the consumed records, each of which has the channel of
    the manager as its topic; a record of another topic yields nothing. *)
Theorem listen_yields_channel_messages (pickle : Pickle.t) (self : t)
    (stream : list Message.t) :
  exists consumed : list Message.t,
    sublist consumed stream /\
    Forall (fun m => Message.topic m = channel self) consumed /\
    Forall2 (fun m v => Pickle.loads pickle (Message.value m) = inr v)
            consumed (yielded (_listen pickle self stream)).
Proof.
  unfold _listen. rewrite kafka_listen_all.
  induction stream as [| m rest (consumed & Hsub & Htopic & Hval)]; simpl.
  - exists []. repeat constructor.
  - destruct (String.eqb (Message.topic m) (channel self)) eqn:Heq.
    + apply String.eqb_eq in Heq.
      destruct (Pickle.loads pickle (Message.value m)) as [x | v] eqn:Hloads; simpl.
      * exists []. split; [apply sublist_nil_l | split; constructor].
      * exists (m :: consumed).
        split; [now apply sublist_skip | split; now constructor].
    + exists consumed. split; [now apply sublist_cons | now split].
Qed.

(** C7. A value that [_publish] sends and a peer on the same channel
    receives, with a codec whose [loads] undoes its [dumps] on that value:
    the publisher hands to the broker one record of the channel, and the
    peer's [_listen], when it comes to that record, yields the value that was
    published. *)
Theorem publish_listen_roundtrip (pickle : Pickle.t) (self peer : t)
    (data : Py.value) (bytes : list Byte.byte) (e : env)
    (pre post : list Message.t) :
  channel peer = channel self ->
  Pickle.dumps pickle data = inr bytes ->
  Pickle.loads pickle bytes = inr data ->
  reachable e = true ->
  raised (_listen pickle peer pre) = None ->
  exists m : Message.t,
    _publish pickle self data e
      = (inr tt, Env (trace e) true [] (broker e ++ pending e ++ [m])) /\
    _listen pickle peer (pre ++ m :: post)
      = Generated (yielded (_listen pickle peer pre)
                     ++ data :: yielded (_listen pickle peer post))
                  (raised (_listen pickle peer post)).
Proof.
  intros Hchan Hdumps Hloads Hup Hpre.
  exists (Message.Make (channel self) bytes). split.
  - now apply publish_ok.
  - rewrite (listen_app pickle peer pre _ Hpre). unfold _listen at 2 3 4.
    rewrite !kafka_listen_all. simpl.
    rewrite Hchan, String.eqb_refl, Hloads. simpl.
    unfold _listen. now rewrite !kafka_listen_all.
Qed.

Lemma publish_listen_roundtrip_witness :
  exists m : Message.t,
    _publish sample_pickle sample_writer (VBytes [Byte.x01]) idle_env
      = (inr tt, Env [] true [] [m]) /\
    _listen sample_pickle sample_manager ([foreign_record; first_record] ++ m :: [])
      = Generated [VNone; VBytes [Byte.x01]] None.
Proof.
  apply (publish_listen_roundtrip sample_pickle sample_writer sample_manager
           (VBytes [Byte.x01]) [Byte.x42; Byte.x01] idle_env
           [foreign_record; first_record] []); reflexivity.
Defined.

(** C8, as stated, fails: of three records on the channel, the second of
    which does not decode, [_listen] yields the first and ends with the
    decoding error; the third, which decodes, is not yielded. *)
Lemma listen_malformed_counterexample :
  _listen sample_pickle sample_manager [first_record; malformed_record; last_record]
    = Generated [VNone] (Some (PickleError "invalid load key")) /\
  Message.topic last_record = channel sample_manager /\
  Pickle.loads sample_pickle (Message.value last_record) = inr (VBytes [Byte.x01]) /\
  ~ In (VBytes [Byte.x01])
       (yielded (_listen sample_pickle sample_manager
                   [first_record; malformed_record; last_record])).
Proof.
  split; [reflexivity | split; [reflexivity | split; [reflexivity |]]].
  simpl. intros [Hin | []]. discriminate Hin.
Qed.

(** C8, amended.  A record on the channel of the manager whose byte value
    does not decode ends [_listen] with the decoding error: what the earlier
    records yielded has been yielded, and no later record is. *)
Theorem listen_stops_at_malformed (pickle : Pickle.t) (self : t)
    (pre post : list Message.t) (m : Message.t) (x : exn) :
  Message.topic m = channel self ->
  Pickle.loads pickle (Message.value m) = inl x ->
  raised (_listen pickle self pre) = None ->
  _listen pickle self (pre ++ m :: post)
    = Generated (yielded (_listen pickle self pre)) (Some x).
Proof.
  intros Htopic Hloads Hpre.
  rewrite (listen_app pickle self pre _ Hpre). unfold _listen at 2 3.
  rewrite !kafka_listen_all. simpl.
  rewrite Htopic, String.eqb_refl, Hloads. simpl. now rewrite app_nil_r.
Qed.

Lemma listen_stops_at_malformed_witness :
  _listen sample_pickle sample_manager ([first_record] ++ malformed_record :: [last_record])
    = Generated [VNone] (Some (PickleError "invalid load key")).
Proof.
  apply (listen_stops_at_malformed sample_pickle sample_manager
           [first_record] [last_record] malformed_record
           (PickleError "invalid load key")); reflexivity.
Defined.

(** C9. A manager constructed with [write_only = True]: its start does not
    start the consumer loop, so that whatever the broker delivers nothing is
    applied locally and nothing else happens; and [_publish] hands the record
    to the broker as it does for every manager. *)
Theorem write_only_never_applies (pickle : Pickle.t) (kafka : option package)
    (url chan : string) (e e' : env) (self : t) :
  __init__ kafka url chan true e = (inr self, e') ->
  (forall stream e1, initialize pickle self stream e1 = (inr tt, e1)) /\
  (forall data bytes e1,
     Pickle.dumps pickle data = inr bytes ->
     reachable e1 = true ->
     _publish pickle self data e1
       = (inr tt, Env (trace e1) true []
                    (broker e1 ++ pending e1 ++ [Message.Make chan bytes]))).
Proof.
  destruct kafka as [lib |]; [| discriminate].
  rewrite init_with_kafka. destruct (reachable e); [| discriminate].
  intros [= <- _]. split.
  - intros stream e1. reflexivity.
  - intros data bytes e1 Hdumps Hup. now apply publish_ok.
Qed.

Lemma write_only_never_applies_witness :
  initialize sample_pickle sample_writer [first_record; last_record] idle_env
    = (inr tt, idle_env) /\
  _publish sample_pickle sample_writer VNone idle_env
    = (inr tt, Env [] true [] [Message.Make "socketioN" [Byte.x4e]]).
Proof.
  assert (Hinit : __init__ (Some KafkaPython) "kafka://" "socketioN" true idle_env
                  = (inr sample_writer,
                     Env [BaseInit "socketioN" true; ProducerCreated "localhost:9092";
                          ConsumerCreated "socketioN" "localhost:9092"] true [] []))
    by (vm_compute; reflexivity).
  destruct (write_only_never_applies sample_pickle _ _ _ _ _ _ Hinit) as [Hstart Hpub].
  split; [apply Hstart | apply (Hpub VNone [Byte.x4e] idle_env); reflexivity].
Defined.

(** A manager that is not write-only does start the loop: each value that
    [_listen] yields is applied, in order. *)
Lemma initialize_applies (pickle : Pickle.t) (self : t) (stream : list Message.t) (e : env) :
  write_only self = false ->
  trace (initialize pickle self stream e).2
    = (trace e ++ map Applied (yielded (_listen pickle self stream)))%list.
Proof. intros Hwo. unfold initialize. now rewrite Hwo. Qed.

(** ** Further properties of event dispatch *)

(** The handler name determines the event. *)
Lemma handler_name_inj (a b : string) : "on_" +:+ a = "on_" +:+ b -> a = b.
Proof. intros Heq. now injection Heq. Qed.

(** The dispatch of the client class is the dispatch of the server class on
    the same attributes. *)
Lemma client_dispatch_as_server {W : Type} (cself : AsyncClientNamespace.t W)
    (srv : Server.t W) (event : string) (args : list value) (st : world W) :
  AsyncClientNamespace.trigger_event cself event args st =
  AsyncNamespace.trigger_event
    (AsyncNamespace.Make (AsyncClientNamespace.attrs cself)
       (AsyncClientNamespace.namespace cself) srv) event args st.
Proof. reflexivity. Qed.

(** A dispatch that has finished: what it did to the log. *)
Lemma dispatch_log {W : Type} (self : AsyncNamespace.t W)
    (event : string) (args : list value) (st : world W) sched o st' :
  run (sched_in_world sched) (AsyncNamespace.trigger_event self event args st)
    = Some (o, st') ->
  (st' = st /\ forall f, AsyncNamespace.attrs self !! ("on_" +:+ event) <> Some (Function f)) \/
  calls st' = (calls st ++ [("on_" +:+ event, args)])%list.
Proof.
  unfold AsyncNamespace.trigger_event.
  destruct (AsyncNamespace.attrs self !! ("on_" +:+ event)) as [[f | f | v] |] eqn:Hattr.
  - destruct (f args (app st)) as [ret a]. simpl. intros [= <- <-]. now right.
  - rewrite run_try_await, run_in_world.
    destruct (run sched (f args (app st))) as [[o1 a] |]; simpl; [| discriminate].
    intros Hsome. right.
    destruct o1 as [v | []]; simpl in Hsome; injection Hsome as <- <-; reflexivity.
  - simpl. intros [= <- <-]. left. split; [reflexivity | discriminate].
  - simpl. intros [= <- <-]. left. split; [reflexivity | discriminate].
Qed.

(** X1. Adding, replacing or removing the handler of another event leaves
    the dispatch of an event as it was, in both classes. *)
Theorem trigger_event_other_handler {W : Type}
    (attrs : gmap string (attribute W)) (ns : value)
    (srv : Server.t W) (cli : Client.t W) (h : attribute W)
    (other event : string) (args : list value) (st : world W) :
  other <> event ->
  AsyncNamespace.trigger_event
    (AsyncNamespace.Make (<["on_" +:+ other := h]> attrs) ns srv) event args st
    = AsyncNamespace.trigger_event (AsyncNamespace.Make attrs ns srv) event args st /\
  AsyncNamespace.trigger_event
    (AsyncNamespace.Make (delete ("on_" +:+ other) attrs) ns srv) event args st
    = AsyncNamespace.trigger_event (AsyncNamespace.Make attrs ns srv) event args st /\
  AsyncClientNamespace.trigger_event
    (AsyncClientNamespace.Make (<["on_" +:+ other := h]> attrs) ns cli) event args st
    = AsyncClientNamespace.trigger_event (AsyncClientNamespace.Make attrs ns cli) event args st /\
  AsyncClientNamespace.trigger_event
    (AsyncClientNamespace.Make (delete ("on_" +:+ other) attrs) ns cli) event args st
    = AsyncClientNamespace.trigger_event (AsyncClientNamespace.Make attrs ns cli) event args st.
Proof.
  intros Hne.
  assert (Hname : "on_" +:+ other <> "on_" +:+ event)
    by (intros Heq; apply Hne; now apply handler_name_inj).
  unfold AsyncNamespace.trigger_event, AsyncClientNamespace.trigger_event.
  cbn [AsyncNamespace.attrs AsyncClientNamespace.attrs].
  rewrite (lookup_insert_ne attrs _ _ h Hname), (lookup_delete_ne attrs _ _ Hname).
  repeat split; reflexivity.
Qed.

Lemma trigger_event_other_handler_witness :
  AsyncNamespace.trigger_event
    (AsyncNamespace.Make (<["on_" +:+ "typing" := Data VNone]> sample_attrs)
       (VStr "/chat") echo_server) "first" [VInt 7] (World 0 [])
    = AsyncNamespace.trigger_event
        (AsyncNamespace.Make sample_attrs (VStr "/chat") echo_server)
        "first" [VInt 7] (World 0 []).
Proof.
  apply (trigger_event_other_handler sample_attrs (VStr "/chat") echo_server echo_client
           (Data VNone) "typing" "first" [VInt 7] (World 0 [])).
  discriminate.
Defined.

(** X2. The two classes dispatch alike: on the same attributes the
    [trigger_event] of [AsyncClientNamespace] and that of [AsyncNamespace]
    are the same coroutine, whatever the namespace and the owner. *)
Theorem trigger_event_classes_agree {W : Type}
    (self : AsyncNamespace.t W) (cself : AsyncClientNamespace.t W)
    (event : string) (args : list value) (st : world W) :
  AsyncNamespace.attrs self = AsyncClientNamespace.attrs cself ->
  AsyncNamespace.trigger_event self event args st
    = AsyncClientNamespace.trigger_event cself event args st.
Proof.
  intros Hattrs. unfold AsyncNamespace.trigger_event, AsyncClientNamespace.trigger_event.
  now rewrite Hattrs.
Qed.

Lemma trigger_event_classes_agree_witness :
  AsyncNamespace.trigger_event chat_namespace "message" [VStr "hi"] (World 0 [])
    = AsyncClientNamespace.trigger_event chat_client_namespace "message" [VStr "hi"] (World 0 []).
Proof.
  apply (trigger_event_classes_agree chat_namespace chat_client_namespace). reflexivity.
Defined.

(** X3. A dispatch is suspended only inside a coroutine handler: with a
    coroutine handler it has finished exactly when the handler has, and
    with a plain handler, an attribute that is not callable or no handler it
    finishes without any wake-up of the event loop. *)
Theorem trigger_event_finishes_with_handler {W : Type}
    (self : AsyncNamespace.t W) (cself : AsyncClientNamespace.t W)
    (event : string) (args : list value) (st : world W) :
  let name := "on_" +:+ event in
  (forall f sched,
     AsyncNamespace.attrs self !! name = Some (CoroutineFunction f) ->
     (run (sched_in_world sched) (AsyncNamespace.trigger_event self event args st) = None
      <-> run sched (f args (app st)) = None)) /\
  ((forall f, AsyncNamespace.attrs self !! name <> Some (CoroutineFunction f)) ->
   run [] (AsyncNamespace.trigger_event self event args st) <> None) /\
  (forall f sched,
     AsyncClientNamespace.attrs cself !! name = Some (CoroutineFunction f) ->
     (run (sched_in_world sched) (AsyncClientNamespace.trigger_event cself event args st) = None
      <-> run sched (f args (app st)) = None)) /\
  ((forall f, AsyncClientNamespace.attrs cself !! name <> Some (CoroutineFunction f)) ->
   run [] (AsyncClientNamespace.trigger_event cself event args st) <> None).
Proof.
  intros name. subst name.
  assert (Hcoro : forall (t : task W) sched log,
            run (sched_in_world sched) (try_await (in_world t log)) = None
            <-> run sched t = None).
  { intros t sched log. rewrite run_try_await, run_in_world.
    destruct (run sched t); simpl; split; congruence. }
  split; [| split; [| split]].
  - intros f sched Hattr. dispatch_to Hattr. apply Hcoro.
  - intros Hplain. unfold AsyncNamespace.trigger_event.
    destruct (AsyncNamespace.attrs self !! ("on_" +:+ event)) as [[f | f | v] |] eqn:Hattr;
      simpl; try discriminate.
    + now destruct (f args (app st)).
    + now destruct (Hplain f).
  - intros f sched Hattr. dispatch_to Hattr. apply Hcoro.
  - intros Hplain. unfold AsyncClientNamespace.trigger_event.
    destruct (AsyncClientNamespace.attrs cself !! ("on_" +:+ event)) as [[f | f | v] |] eqn:Hattr;
      simpl; try discriminate.
    + now destruct (f args (app st)).
    + now destruct (Hplain f).
Qed.

Lemma trigger_event_finishes_with_handler_witness :
  (run (sched_in_world [])
       (AsyncNamespace.trigger_event chat_namespace "message" [VStr "hi"] (World 0 [])) = None
   <-> run [] (on_message_ack [VStr "hi"] 0) = None) /\
  run [] (AsyncNamespace.trigger_event chat_namespace "first" [VInt 7] (World 0 [])) <> None.
Proof.
  destruct (trigger_event_finishes_with_handler chat_namespace chat_client_namespace
              "message" [VStr "hi"] (World 0 [])) as (Hco & _).
  destruct (trigger_event_finishes_with_handler chat_namespace chat_client_namespace
              "first" [VInt 7] (World 0 [])) as (_ & Hplain & _).
  split.
  - apply (Hco on_message_ack []). vm_compute. reflexivity.
  - apply Hplain. intros f. vm_compute. discriminate.
Defined.

(** X4. A dispatch calls at most one handler, and only the one of its
    event: when it has finished, either the state is the one it started in,
    or the log has grown by the single call of ["on_" + event] with the
    arguments of the dispatch. *)
Theorem trigger_event_at_most_one_call {W : Type}
    (self : AsyncNamespace.t W) (cself : AsyncClientNamespace.t W)
    (event : string) (args : list value) (st : world W)
    (sched : list (signal * (W -> W))) (o : outcome) (st' : world W) :
  (run (sched_in_world sched) (AsyncNamespace.trigger_event self event args st)
     = Some (o, st') ->
   st' = st \/ calls st' = (calls st ++ [("on_" +:+ event, args)])%list) /\
  (run (sched_in_world sched) (AsyncClientNamespace.trigger_event cself event args st)
     = Some (o, st') ->
   st' = st \/ calls st' = (calls st ++ [("on_" +:+ event, args)])%list).
Proof.
  split; intros Hrun.
  - destruct (dispatch_log self event args st sched o st' Hrun) as [[-> _] | Hlog];
      [now left | now right].
  - rewrite (client_dispatch_as_server cself (AsyncNamespace.server self)) in Hrun.
    destruct (dispatch_log _ event args st sched o st' Hrun) as [[-> _] | Hlog];
      [now left | now right].
Qed.

Lemma trigger_event_at_most_one_call_witness :
  World 1 [("on_message", [VStr "hi"])] = World 0 [] \/
  calls (World 1 [("on_message", [VStr "hi"])])
    = (calls (World (W:=nat) 0 []) ++ [("on_" +:+ "message", [VStr "hi"])])%list.
Proof.
  destruct (trigger_event_at_most_one_call chat_namespace chat_client_namespace
              "message" [VStr "hi"] (World 0 []) [(Resume, id)]
              (Return (VStr "ack")) (World 1 [("on_message", [VStr "hi"])])) as [Hs _].
  apply Hs. vm_compute. reflexivity.
Defined.

(** X5. A dispatch to a coroutine handler ends with [CancelledError] only
    when its task was cancelled before its first step, and then no handler
    has been called and the state is the one it started in; once the
    dispatch has started, no schedule of wake-ups and cancellations makes it
    end with [CancelledError]. *)
Theorem trigger_event_cancelled_only_before_start {W : Type}
    (self : AsyncNamespace.t W) (cself : AsyncClientNamespace.t W)
    (event : string) (args : list value) (st : world W) (c : start)
    (sched : list (signal * (world W -> world W))) (st' : world W) :
  (forall f,
     AsyncNamespace.attrs self !! ("on_" +:+ event) = Some (CoroutineFunction f) ->
     run_task c sched (AsyncNamespace.trigger_event self event args) st
       = Some (Raise CancelledError, st') ->
     c = CancelledBeforeStart /\ st' = st) /\
  (forall f,
     AsyncClientNamespace.attrs cself !! ("on_" +:+ event) = Some (CoroutineFunction f) ->
     run_task c sched (AsyncClientNamespace.trigger_event cself event args) st
       = Some (Raise CancelledError, st') ->
     c = CancelledBeforeStart /\ st' = st).
Proof.
  assert (Hcatch : forall t : task (world W),
            run sched (try_await t) <> Some (Raise CancelledError, st')).
  { intros t. rewrite run_try_await.
    destruct (run sched t) as [[[v | []] s] |]; simpl; discriminate. }
  split; intros f Hattr; destruct c; simpl.
  - dispatch_to Hattr. intros Hrun. now destruct (Hcatch _ Hrun).
  - intros [= <-]. now split.
  - dispatch_to Hattr. intros Hrun. now destruct (Hcatch _ Hrun).
  - intros [= <-]. now split.
Qed.

Lemma trigger_event_cancelled_only_before_start_witness :
  CancelledBeforeStart = CancelledBeforeStart /\
  World 0 [] = World (W:=nat) 0 [].
Proof.
  destruct (trigger_event_cancelled_only_before_start chat_namespace chat_client_namespace
              "message" [VStr "hi"] (World 0 []) CancelledBeforeStart
              (sched_in_world [(Resume, id)]) (World 0 [])) as [Hs _].
  apply (Hs on_message_ack); vm_compute; reflexivity.
Defined.

(** X6. An attribute ["on_" + event] that is not callable is not treated as
    a missing handler: the dispatch raises [TypeError] at once, in the state
    it started in. *)
Theorem trigger_event_not_callable {W : Type}
    (self : AsyncNamespace.t W) (cself : AsyncClientNamespace.t W)
    (event : string) (args : list value) (st : world W) (v : value) :
  (AsyncNamespace.attrs self !! ("on_" +:+ event) = Some (Data v) ->
   exists msg,
     AsyncNamespace.trigger_event self event args st = Done (Raise (TypeError msg)) st) /\
  (AsyncClientNamespace.attrs cself !! ("on_" +:+ event) = Some (Data v) ->
   exists msg,
     AsyncClientNamespace.trigger_event cself event args st
       = Done (Raise (TypeError msg)) st).
Proof.
  split; intros Hattr; dispatch_to Hattr; eexists; reflexivity.
Qed.

Lemma trigger_event_not_callable_witness :
  exists msg,
    AsyncNamespace.trigger_event
      (AsyncNamespace.Make (<["on_ping" := Data (VInt 5)]> sample_attrs)
         (VStr "/chat") echo_server) "ping" [] (World 0 [])
    = Done (Raise (TypeError msg)) (World 0 []).
Proof.
  destruct (trigger_event_not_callable
              (AsyncNamespace.Make (<["on_ping" := Data (VInt 5)]> sample_attrs)
                 (VStr "/chat") echo_server)
              chat_client_namespace "ping" [] (World 0 []) (VInt 5)) as [Hs _].
  apply Hs. vm_compute. reflexivity.
Defined.

(** ** Further properties of the facade *)

Lemma py_or_same (v : value) : py_or v v = v.
Proof. unfold py_or. now destruct (truthy v). Qed.

Lemma py_or_truthy (a b : value) : truthy b = true -> truthy (py_or a b) = true.
Proof. intros Hb. unfold py_or. now destruct (truthy a) eqn:Ha. Qed.

(** X7. To give the bound namespace of the instance as the override is the
    same as to give none, for every operation of the two facades that takes
    an override. *)
Theorem facade_bound_override {W : Type}
    (self : AsyncNamespace.t W) (cself : AsyncClientNamespace.t W)
    (event data room skip_sid sid session callback : value) :
  let ns := AsyncNamespace.namespace self in
  let cns := AsyncClientNamespace.namespace cself in
  AsyncNamespace.emit self event data room skip_sid ns callback
    = AsyncNamespace.emit self event data room skip_sid VNone callback /\
  AsyncNamespace.send self data room skip_sid ns callback
    = AsyncNamespace.send self data room skip_sid VNone callback /\
  AsyncNamespace.close_room self room ns = AsyncNamespace.close_room self room VNone /\
  AsyncNamespace.get_session self sid ns = AsyncNamespace.get_session self sid VNone /\
  AsyncNamespace.save_session self sid session ns
    = AsyncNamespace.save_session self sid session VNone /\
  AsyncNamespace.session self sid ns = AsyncNamespace.session self sid VNone /\
  AsyncNamespace.disconnect self sid ns = AsyncNamespace.disconnect self sid VNone /\
  AsyncClientNamespace.emit cself event data cns callback
    = AsyncClientNamespace.emit cself event data VNone callback /\
  AsyncClientNamespace.send cself data cns callback
    = AsyncClientNamespace.send cself data VNone callback.
Proof.
  intros ns cns. subst ns cns.
  unfold AsyncNamespace.emit, AsyncNamespace.send, AsyncNamespace.close_room,
    AsyncNamespace.get_session, AsyncNamespace.save_session,
    AsyncNamespace.session, AsyncNamespace.disconnect,
    AsyncClientNamespace.emit, AsyncClientNamespace.send.
  rewrite !py_or_same. repeat split; reflexivity.
Qed.

(** X8. An instance whose bound namespace is truthy (a non-empty string)
    never forwards a falsy namespace, whatever override the caller gives:
    the namespace of the forwarded call, the same for every owner, is
    truthy. *)
Theorem facade_namespace_truthy {W : Type}
    (attrs : gmap string (attribute W)) (bound : value)
    (event data room skip_sid sid session callback override : value) :
  truthy bound = true ->
  exists ns : value,
    truthy ns = true /\
    forall (srv : Server.t W) (cli : Client.t W),
      let self := AsyncNamespace.Make attrs bound srv in
      let cself := AsyncClientNamespace.Make attrs bound cli in
      AsyncNamespace.emit self event data room skip_sid override callback
        = Server.emit srv event data room skip_sid ns callback /\
      AsyncNamespace.send self data room skip_sid override callback
        = Server.send srv data room skip_sid ns callback /\
      AsyncNamespace.close_room self room override = Server.close_room srv room ns /\
      AsyncNamespace.get_session self sid override = Server.get_session srv sid ns /\
      AsyncNamespace.save_session self sid session override
        = Server.save_session srv sid session ns /\
      AsyncNamespace.session self sid override = Server.session srv sid ns /\
      AsyncNamespace.disconnect self sid override = Server.disconnect srv sid ns /\
      AsyncClientNamespace.emit cself event data override callback
        = Client.emit cli event data ns callback /\
      AsyncClientNamespace.send cself data override callback
        = Client.send cli data ns callback.
Proof.
  intros Hbound. exists (py_or override bound).
  split; [now apply py_or_truthy |].
  intros srv cli self cself. repeat split; reflexivity.
Qed.

Lemma facade_namespace_truthy_witness :
  exists ns : value,
    truthy ns = true /\
    AsyncNamespace.emit chat_namespace (VStr "news") VNone VNone VNone (VStr "") VNone
      = Server.emit echo_server (VStr "news") VNone VNone VNone ns VNone.
Proof.
  destruct (facade_namespace_truthy sample_attrs (VStr "/chat")
              (VStr "news") VNone VNone VNone VNone VNone VNone (VStr ""))
    as (ns & Hns & Hall); [reflexivity |].
  exists ns. split; [exact Hns |].
  destruct (Hall echo_server echo_client) as [Hemit _]. exact Hemit.
Defined.

(** ** Further properties of the Kafka manager: listening *)

Section Listening.
Context (pickle : Pickle.t).

Lemma listen_loop_filter (self : t) (stream : list Message.t) :
  listen_loop pickle self (List.filter (fun m => String.eqb (Message.topic m) (channel self)) stream)
  = listen_loop pickle self stream.
Proof.
  induction stream as [| m rest IH]; simpl; [reflexivity |].
  destruct (String.eqb (Message.topic m) (channel self)) eqn:Hm; simpl.
  - rewrite Hm, IH. reflexivity.
  - exact IH.
Qed.

Lemma listen_on_channel_only (self : t) (stream : list Message.t) :
  _listen pickle self (List.filter (fun m => String.eqb (Message.topic m) (channel self)) stream) = _listen pickle self stream.
Proof. unfold _listen. rewrite !kafka_listen_all. apply listen_loop_filter. Qed.

(** A generator that has raised is over: what is consumed later changes
    nothing. *)
Lemma listen_dead (self : t) (pre post : list Message.t) (x : exn) :
  raised (_listen pickle self pre) = Some x ->
  _listen pickle self (pre ++ post) = _listen pickle self pre.
Proof.
  unfold _listen. rewrite !kafka_listen_all.
  induction pre as [| m pre IH]; simpl; [discriminate |].
  destruct (String.eqb (Message.topic m) (channel self)); [| exact IH].
  destruct (Pickle.loads pickle (Message.value m)) as [y | v]; simpl; [reflexivity |].
  intros Hx. now rewrite (IH Hx).
Qed.

End Listening.

(** X9. [_kafka_listen] hands on every record that the consumer delivers,
    unchanged and in order, whatever its topic. *)
Theorem kafka_listen_every_record (self : t) (stream : list Message.t) :
  _kafka_listen self stream = stream.
Proof. apply kafka_listen_all. Qed.

(** X10. Records of other topics are invisible to [_listen]: it does on a
    stream what it does on the records of that stream that are on the
    channel of the manager. *)
Theorem listen_ignores_other_topics (pickle : Pickle.t) (self : t)
    (stream : list Message.t) :
  _listen pickle self stream
  = _listen pickle self
      (List.filter (fun m => String.eqb (Message.topic m) (channel self)) stream).
Proof. symmetry. apply listen_on_channel_only. Qed.

(** X11. When every record on the channel decodes, [_listen] misses none:
    it ends without an exception and yields, in order, the decoded value of
    each record on the channel. *)
Theorem listen_yields_every_channel_message (pickle : Pickle.t) (self : t)
    (stream : list Message.t) :
  Forall (fun m => Message.topic m = channel self ->
                   exists v, Pickle.loads pickle (Message.value m) = inr v) stream ->
  raised (_listen pickle self stream) = None /\
  Forall2 (fun m v => Pickle.loads pickle (Message.value m) = inr v)
    (List.filter (fun m => String.eqb (Message.topic m) (channel self)) stream)
    (yielded (_listen pickle self stream)).
Proof.
  unfold _listen. rewrite kafka_listen_all.
  induction stream as [| m rest IH]; simpl; intros Hall.
  - split; constructor.
  - apply Forall_cons in Hall as [Hm Hrest]. destruct (IH Hrest) as [Hraised Hvals].
    destruct (String.eqb (Message.topic m) (channel self)) eqn:Htopic; [| now split].
    apply String.eqb_eq in Htopic. destruct (Hm Htopic) as [v Hv].
    rewrite Hv. simpl. split; [exact Hraised | now constructor].
Qed.

Lemma listen_yields_every_channel_message_witness :
  raised (_listen sample_pickle sample_manager [first_record; foreign_record; last_record])
    = None /\
  Forall2 (fun m v => Pickle.loads sample_pickle (Message.value m) = inr v)
    (List.filter (fun m => String.eqb (Message.topic m) (channel sample_manager))
       [first_record; foreign_record; last_record])
    (yielded (_listen sample_pickle sample_manager
                [first_record; foreign_record; last_record])).
Proof.
  apply (listen_yields_every_channel_message sample_pickle sample_manager
           [first_record; foreign_record; last_record]).
  repeat constructor.
  - intros _. exists VNone. reflexivity.
  - intros Htopic. discriminate Htopic.
  - intros _. exists (VBytes [Byte.x01]). reflexivity.
Defined.

(** X12. What [_listen] has yielded stays yielded: the values yielded from
    the records consumed so far are a prefix of the values yielded once more
    records have been consumed. *)
Theorem listen_yields_prefix (pickle : Pickle.t) (self : t)
    (pre post : list Message.t) :
  yielded (_listen pickle self pre) `prefix_of` yielded (_listen pickle self (pre ++ post)).
Proof.
  destruct (raised (_listen pickle self pre)) as [x |] eqn:Hraised.
  - rewrite (listen_dead pickle self pre post x Hraised). reflexivity.
  - rewrite (listen_app pickle self pre post Hraised). simpl.
    now exists (yielded (_listen pickle self post)).
Qed.

(** ** Further properties of the Kafka manager: publishing *)

(** X13. A [_publish] that raises has sent nothing: the buffer of the
    producer and the records of the broker are as before, and the exception
    is the one of [pickle.dumps] or comes from a producer that cannot reach
    the brokers. *)
Theorem publish_failure_sends_nothing (pickle : Pickle.t) (self : t)
    (data : Py.value) (e e' : env) (x : exn) :
  _publish pickle self data e = (inl x, e') ->
  e' = e /\ (Pickle.dumps pickle data = inl x \/ reachable e = false).
Proof.
  unfold _publish, bind, lift, producer_send, producer_flush.
  destruct (Pickle.dumps pickle data) as [y | bytes].
  - intros [= <- <-]. split; [reflexivity | now left].
  - destruct (reachable e) eqn:Hup.
    + discriminate.
    + intros [= <- <-]. split; [reflexivity | now right].
Qed.

Lemma publish_failure_sends_nothing_witness :
  idle_env = idle_env /\
  (Pickle.dumps sample_pickle (VInt 3) = inl (PickleError "cannot pickle object") \/
   reachable idle_env = false).
Proof.
  apply (publish_failure_sends_nothing sample_pickle sample_manager (VInt 3)
           idle_env idle_env (PickleError "cannot pickle object")).
  reflexivity.
Defined.

(** X14. Two values published one after the other reach the broker in the
    order of the calls, after the records that were there, with nothing left
    in the buffer; a peer on the same channel, with a codec whose [loads]
    undoes [dumps] on them, yields them in that order. *)
Theorem publish_order_kept (pickle : Pickle.t) (self peer : t)
    (d1 d2 : Py.value) (b1 b2 : list Byte.byte) (e : env) :
  channel peer = channel self ->
  Pickle.dumps pickle d1 = inr b1 -> Pickle.loads pickle b1 = inr d1 ->
  Pickle.dumps pickle d2 = inr b2 -> Pickle.loads pickle b2 = inr d2 ->
  reachable e = true ->
  exists (e1 e2 : env) (m1 m2 : Message.t),
    _publish pickle self d1 e = (inr tt, e1) /\
    _publish pickle self d2 e1 = (inr tt, e2) /\
    pending e2 = [] /\
    broker e2 = ((broker e ++ pending e) ++ [m1; m2])%list /\
    _listen pickle peer [m1; m2] = Generated [d1; d2] None.
Proof.
  intros Hchan Hd1 Hl1 Hd2 Hl2 Hup.
  set (m1 := Message.Make (channel self) b1).
  set (m2 := Message.Make (channel self) b2).
  set (e1 := Env (trace e) true [] (broker e ++ pending e ++ [m1])).
  exists e1, (Env (trace e1) true [] (broker e1 ++ pending e1 ++ [m2])), m1, m2.
  split; [now apply publish_ok |].
  split; [now apply publish_ok |].
  split; [reflexivity |]. split.
  - simpl. now rewrite <- !app_assoc.
  - unfold _listen. simpl. now rewrite Hchan, String.eqb_refl, Hl1, Hl2.
Qed.

Lemma publish_order_kept_witness :
  exists (e1 e2 : env) (m1 m2 : Message.t),
    _publish sample_pickle sample_writer VNone idle_env = (inr tt, e1) /\
    _publish sample_pickle sample_writer (VBytes [Byte.x01]) e1 = (inr tt, e2) /\
    pending e2 = [] /\
    broker e2 = ((broker idle_env ++ pending idle_env) ++ [m1; m2])%list /\
    _listen sample_pickle sample_manager [m1; m2]
      = Generated [VNone; VBytes [Byte.x01]] None.
Proof.
  apply (publish_order_kept sample_pickle sample_writer sample_manager
           VNone (VBytes [Byte.x01]) [Byte.x4e] [Byte.x42; Byte.x01] idle_env);
    reflexivity.
Defined.

(** X15. Managers on different channels do not hear each other: the record
    that [_publish] sends on one channel changes nothing in what a manager
    of another channel yields, wherever it comes in the stream. *)
Theorem publish_other_channel_unheard (pickle : Pickle.t) (self peer : t)
    (data : Py.value) (bytes : list Byte.byte) (e : env) :
  channel peer <> channel self ->
  Pickle.dumps pickle data = inr bytes ->
  reachable e = true ->
  exists m : Message.t,
    _publish pickle self data e
      = (inr tt, Env (trace e) true [] (broker e ++ pending e ++ [m])) /\
    forall pre post,
      _listen pickle peer (pre ++ m :: post) = _listen pickle peer (pre ++ post).
Proof.
  intros Hchan Hdumps Hup. exists (Message.Make (channel self) bytes).
  split; [now apply publish_ok |].
  intros pre post.
  rewrite <- (listen_on_channel_only pickle peer (pre ++ _ :: post)).
  rewrite <- (listen_on_channel_only pickle peer (pre ++ post)).
  rewrite !List.filter_app. simpl.
  assert (Hoff : String.eqb (channel self) (channel peer) = false)
    by (apply String.eqb_neq; congruence).
  now rewrite Hoff.
Qed.

Lemma publish_other_channel_unheard_witness :
  exists m : Message.t,
    _publish sample_pickle
        (Make "metrics" false "localhost:9092" (Producer "localhost:9092")
           (Consumer "metrics" "localhost:9092"))
        VNone idle_env
      = (inr tt, Env [] true [] [m]) /\
    forall pre post,
      _listen sample_pickle sample_manager (pre ++ m :: post)
      = _listen sample_pickle sample_manager (pre ++ post).
Proof.
  apply (publish_other_channel_unheard sample_pickle
           (Make "metrics" false "localhost:9092" (Producer "localhost:9092")
              (Consumer "metrics" "localhost:9092"))
           sample_manager VNone [Byte.x4e] idle_env).
  - discriminate.
  - reflexivity.
  - reflexivity.
Defined.

(** ** Further properties of the Kafka manager: construction *)

Lemma slice_from_short (n : nat) (s : string) :
  String.length s <= n -> slice_from n s = "".
Proof.
  revert s. induction n as [| n IH]; intros [| c s]; simpl; intros Hlen;
    try reflexivity; try lia.
  apply IH. lia.
Qed.

(** X16. The construction of a manager creates, after the base
    constructor, one producer and then one consumer, both at the address of
    the manager, the consumer subscribed to the channel of the manager.  It
    does so whatever the write-only flag: a write-only manager creates its
    consumer like any other.  Nothing is sent. *)
Theorem init_creates_producer_then_consumer (kafka : option package)
    (url chan : string) (wo : bool) (e e' : env) (self : t) :
  __init__ kafka url chan wo e = (inr self, e') ->
  subscription (consumer self) = channel self /\
  trace e' = (trace e ++ [BaseInit chan wo; ProducerCreated (kafka_url self);
                          ConsumerCreated (channel self) (kafka_url self)])%list /\
  pending e' = pending e /\ broker e' = broker e.
Proof.
  destruct kafka as [lib |]; [| discriminate].
  rewrite init_with_kafka. destruct (reachable e); [| discriminate].
  intros [= <- <-]. repeat split; reflexivity.
Qed.

Lemma init_creates_producer_then_consumer_witness :
  subscription (consumer sample_writer) = channel sample_writer /\
  [BaseInit "socketioN" true; ProducerCreated "localhost:9092";
   ConsumerCreated "socketioN" "localhost:9092"]
  = (trace idle_env ++ [BaseInit "socketioN" true; ProducerCreated (kafka_url sample_writer);
                        ConsumerCreated (channel sample_writer) (kafka_url sample_writer)])%list /\
  @nil Message.t = pending idle_env /\ @nil Message.t = broker idle_env.
Proof.
  apply (init_creates_producer_then_consumer (Some KafkaPython) "kafka://" "socketioN" true
           idle_env
           (Env [BaseInit "socketioN" true; ProducerCreated "localhost:9092";
                 ConsumerCreated "socketioN" "localhost:9092"] true [] [])
           sample_writer).
  vm_compute. reflexivity.
Defined.

(** X17. A url of at most eight characters other than ["kafka://"] leaves
    an empty address: the slice does not fail on a short url, and the
    default address is not used for it. *)
Theorem init_short_url (kafka : option package)
    (url chan : string) (wo : bool) (e e' : env) (self : t) :
  __init__ kafka url chan wo e = (inr self, e') ->
  String.length url <= 8 ->
  url <> "kafka://" ->
  kafka_url self = "".
Proof.
  destruct kafka as [lib |]; [| discriminate].
  rewrite init_with_kafka. destruct (reachable e); [| discriminate].
  intros [= <- _] Hlen Hurl. cbn [kafka_url].
  apply String.eqb_neq in Hurl. rewrite Hurl. cbn [negb].
  exact (slice_from_short 8 url Hlen).
Qed.

Lemma init_short_url_witness :
  kafka_url (Make "socketioN" false "" (Producer "") (Consumer "socketioN" "")) = "".
Proof.
  apply (init_short_url (Some KafkaPython) "kafka:" "socketioN" false idle_env
           (Env [BaseInit "socketioN" false; ProducerCreated "";
                 ConsumerCreated "socketioN" ""] true [] [])).
  - vm_compute. reflexivity.
  - vm_compute. lia.
  - discriminate.
Defined.

(** X18. The url ["kafka://" + host] gives back [host] as the address, for
    every non-empty [host]; with an empty [host] the address is
    ["localhost:9092"]. *)
Theorem init_kafka_url_host (kafka : option package)
    (host chan : string) (wo : bool) (e e' : env) (self : t) :
  __init__ kafka ("kafka://" +:+ host) chan wo e = (inr self, e') ->
  kafka_url self = if String.eqb host "" then "localhost:9092" else host.
Proof.
  destruct kafka as [lib |]; [| discriminate].
  rewrite init_with_kafka. destruct (reachable e); [| discriminate].
  intros [= <- _]. cbn [kafka_url].
  destruct host as [| c host]; reflexivity.
Qed.

Lemma init_kafka_url_host_witness :
  kafka_url (Make "socketioN" false "broker1:9093" (Producer "broker1:9093")
               (Consumer "socketioN" "broker1:9093"))
  = if String.eqb "broker1:9093" "" then "localhost:9092" else "broker1:9093".
Proof.
  apply (init_kafka_url_host (Some KafkaPython) "broker1:9093" "socketioN" false idle_env
           (Env [BaseInit "socketioN" false; ProducerCreated "broker1:9093";
                 ConsumerCreated "socketioN" "broker1:9093"] true [] [])).
  vm_compute. reflexivity.
Defined.
